(** * Verification of [api/ocr-summarize.ts]

    A shallow embedding of the Vercel handler [handler] of
    [api/ocr-summarize.ts].  The handler reads [fileURL] from the query
    string or the request body, fetches it with [node-fetch], buffers the
    body, hands the bytes to [pdf-parse] and answers with one JSON body.

    The two external collaborators ([fetch] with its [arrayBuffer], and
    [pdfParse]) and the prototype-dependent [String(obj)] conversion are
    Section variables: every theorem holds for every behaviour of them
    unless it states a hypothesis about them.  The handler runs in a small
    state-and-exception monad whose state is the trace of observable
    events (outbound fetches, body buffering, parsing, responses sent). *)

From Stdlib Require Import String Ascii List ZArith Bool Lia.
Import ListNotations.
Open Scope string_scope.
Open Scope Z_scope.
Set Warnings "-register-all".


(** ** JavaScript values *)

(** The values the handler touches: [req.query.fileURL] (a string or an
    array of strings under Vercel), the parsed [req.body] (any JSON value),
    the thrown fault [err : any] and [pdf-parse]'s result object.  Objects
    are association lists of their own properties. *)
Inductive jsval : Type :=
| JUndefined
| JNull
| JBool (b : bool)
| JNum (n : Z)
| JStr (s : string)
| JArr (elems : list jsval)
| JObj (props : list (string * jsval)).

(** JavaScript truthiness, as used by [||], [&&] and [!]. *)
Definition truthy (v : jsval) : bool :=
  match v with
  | JUndefined | JNull => false
  | JBool b => b
  | JNum n => negb (Z.eqb n 0)
  | JStr s => negb (String.eqb s "")
  | JArr _ | JObj _ => true
  end.

Definition nullish (v : jsval) : bool :=
  match v with
  | JUndefined | JNull => true
  | _ => false
  end.

Fixpoint assoc_get (props : list (string * jsval)) (k : string) : jsval :=
  match props with
  | [] => JUndefined
  | (k', v) :: rest => if String.eqb k k' then v else assoc_get rest k
  end.

(** Property read [v.k]: a [TypeError] on [null] and [undefined]
    ([None]); primitives and arrays have no own [fileURL], [message] or
    [text] property. *)
Definition js_get (v : jsval) (k : string) : option jsval :=
  match v with
  | JUndefined | JNull => None
  | JObj props => Some (assoc_get props k)
  | _ => Some JUndefined
  end.

(** Decimal rendering of an integer, as [String(n)] does. *)
Fixpoint digits_of_nat (fuel n : nat) (acc : string) : string :=
  match fuel with
  | O => acc
  | S fuel' =>
      let d := Nat.modulo n 10 in
      let acc' := String (ascii_of_nat (48 + d)) acc in
      if Nat.ltb n 10 then acc' else digits_of_nat fuel' (Nat.div n 10) acc'
  end.

Definition string_of_Z (z : Z) : string :=
  let n := Z.to_nat (Z.abs z) in
  let ds := digits_of_nat (S n) n "" in
  if Z.ltb z 0 then "-" ++ ds else ds.

(** [trim]: JavaScript strips white space and line terminators at both
    ends; on 8-bit characters those are TAB, LF, VT, FF, CR, SPACE and
    NO-BREAK SPACE (0xA0). *)
Definition is_ws (c : ascii) : bool :=
  let n := nat_of_ascii c in
  ((Nat.leb 9 n && Nat.leb n 13) || Nat.eqb n 32 || Nat.eqb n 160)%bool.

Fixpoint drop_ws (l : list ascii) : list ascii :=
  match l with
  | [] => []
  | c :: rest => if is_ws c then drop_ws rest else l
  end.

Definition trim (s : string) : string :=
  string_of_list_ascii
    (rev (drop_ws (rev (drop_ws (list_ascii_of_string s))))).

(** ** Events, results and the handler monad *)

(** The response object's [.json] body is itself a [jsval]. *)
Inductive event : Type :=
| EvFetch (url : jsval)            (** [await fetch(fileURL)] *)
| EvArrayBuffer                    (** [await response.arrayBuffer()] *)
| EvParse (bytes : list Byte.byte) (** [await pdfParse(buffer)] *)
| EvSend (status : Z) (body : jsval). (** [res.status(s).json(body)] *)

(** A step either returns or throws a JavaScript value. *)
Inductive result (A : Type) : Type :=
| Return (a : A)
| Throw (e : jsval).
Arguments Return {A} a.
Arguments Throw {A} e.

Definition M (A : Type) : Type := list event -> result A * list event.

Definition ret {A} (a : A) : M A := fun tr => (Return a, tr).

Definition throw {A} (e : jsval) : M A := fun tr => (Throw e, tr).

Definition bind {A B} (m : M A) (k : A -> M B) : M B :=
  fun tr =>
    match m tr with
    | (Return a, tr') => k a tr'
    | (Throw e, tr') => (Throw e, tr')
    end.

Notation "x <- m ;; k" := (bind m (fun x => k))
  (at level 61, m at next level, right associativity).

Definition emit (ev : event) : M unit := fun tr => (Return tt, app tr [ev]).

(** [try { body } catch (err) { handler(err) }] *)
Definition try_catch {A} (body : M A) (h : jsval -> M A) : M A :=
  fun tr =>
    match body tr with
    | (Return a, tr') => (Return a, tr')
    | (Throw e, tr') => h e tr'
    end.

(** Lift a collaborator's outcome into the monad. *)
Definition lift {A} (r : result A) : M A :=
  match r with
  | Return a => ret a
  | Throw e => throw e
  end.

(** The [TypeError] the runtime raises for a property read on [null] or
    [undefined], or for calling a non-function. *)
Definition type_error (msg : string) : jsval :=
  JObj [("name", JStr "TypeError"); ("message", JStr msg)].

(** The [TypeError] of a property read [v.k] on [null] or [undefined],
    with V8's message. *)
Definition read_error (v : jsval) (k : string) : jsval :=
  type_error ("Cannot read properties of " ++
              (match v with JNull => "null" | _ => "undefined" end) ++
              " (reading '" ++ k ++ "')").

Definition get_prop (v : jsval) (k : string) : M jsval :=
  match js_get v k with
  | Some x => ret x
  | None => throw (read_error v k)
  end.

(** ** The request *)

(** A request as the handler sees it once Vercel has parsed it: the query
    object and the value its [req.body] getter returns.  A body whose
    parsing makes that getter throw (malformed JSON) is not represented. *)
Record request : Type := {
  req_query : list (string * jsval);  (** [req.query], always an object *)
  req_body : jsval                    (** [req.body], parsed by Vercel *)
}.

(** The fetched response as [node-fetch] exposes it: its [ok] flag and
    the outcome of [arrayBuffer()]. *)
Record fetch_response : Type := {
  resp_ok : bool;
  resp_arrayBuffer : result (list Byte.byte)
}.

Definition missing_body : jsval :=
  JObj [("ok", JBool false); ("error", JStr "Missing fileURL parameter")].

Definition unable_body : jsval :=
  JObj [("ok", JBool false); ("error", JStr "Unable to fetch file from provided URL")].

Definition success_body (text : string) : jsval :=
  JObj [("ok", JBool true); ("text", JStr text)].

Definition error_body (e : jsval) : jsval :=
  JObj [("ok", JBool false); ("error", e)].

Definition send (status : Z) (body : jsval) : M unit := emit (EvSend status body).

Section Handler.

(** [fetch(url)] from [node-fetch]: throws, or yields a response. *)
Variable fetch : jsval -> result fetch_response.
(** [pdfParse(buffer)] from [pdf-parse]: throws, or yields [data]. *)
Variable pdfParse : list Byte.byte -> result jsval.
(** [String(obj)] for an object: the primitive conversion through
    [toString]/[valueOf], prototype-dependent (["Error: msg"] for an
    [Error], ["[object Object]"] for a plain object).  It can throw: an
    object with neither method callable (such as [Object.create(null)])
    raises a [TypeError], and a user [toString] can throw anything. *)
Variable object_to_string : list (string * jsval) -> result string.

(** [String(v)]; an array is joined with [","], [null] and [undefined]
    elements giving [""], the first element whose conversion throws
    making the whole conversion throw. *)
Fixpoint js_String (v : jsval) : result string :=
  match v with
  | JUndefined => Return "undefined"
  | JNull => Return "null"
  | JBool true => Return "true"
  | JBool false => Return "false"
  | JNum n => Return (string_of_Z n)
  | JStr s => Return s
  | JArr elems =>
      (fix join (l : list jsval) : result string :=
         match l with
         | [] => Return ""
         | [x] => if nullish x then Return "" else js_String x
         | x :: rest =>
             match (if nullish x then Return "" else js_String x) with
             | Throw e => Throw e
             | Return s =>
                 match join rest with
                 | Throw e => Throw e
                 | Return s' => Return (s ++ "," ++ s')
                 end
             end
         end) elems
  | JObj props => object_to_string props
  end.

(** Lines 7-9:
    [(req.query.fileURL as string) || (req.body && (req.body as any).fileURL)] *)
Definition read_fileURL (req : request) : M jsval :=
  let q := assoc_get (req_query req) "fileURL" in
  if truthy q then ret q
  else
    let b := req_body req in
    if truthy b then get_prop b "fileURL" else ret b.

(** Line 28: [data?.text?.trim() ?? ""] *)
Definition extract_text (data : jsval) : M string :=
  if nullish data then ret ""
  else
    t <- get_prop data "text" ;;
    if nullish t then ret ""
    else
      match t with
      | JStr s => ret (trim s)
      | _ => throw (type_error "data?.text?.trim is not a function")
      end.

(** Lines 6-30: the [try] block. *)
Definition handler_try (req : request) : M unit :=
  fileURL <- read_fileURL req ;;
  if negb (truthy fileURL) then send 400 missing_body
  else
    _ <- emit (EvFetch fileURL) ;;
    response <- lift (fetch fileURL) ;;
    if negb (resp_ok response) then send 400 unable_body
    else
      _ <- emit EvArrayBuffer ;;
      buffer <- lift (resp_arrayBuffer response) ;;
      _ <- emit (EvParse buffer) ;;
      data <- lift (pdfParse buffer) ;;
      extractedText <- extract_text data ;;
      send 200 (success_body extractedText).

(** Lines 31-36: the [catch] block,
    [error: err.message || String(err)]. *)
Definition handler_catch (err : jsval) : M unit :=
  msg <- get_prop err "message" ;;
  if truthy msg then send 500 (error_body msg)
  else
    s <- lift (js_String err) ;;
    send 500 (error_body (JStr s)).

(** Lines 5-37: [handler(req, res)], from an empty trace. *)
Definition handler (req : request) : result unit * list event :=
  try_catch (handler_try req) handler_catch [].

End Handler.

(** ** The value of lines 7-9 and the message of line 34 *)

(** The value the expression of lines 7-9 evaluates to.  On a [request]
    (whose body the runtime has parsed) it never throws:
    [req.body.fileURL] is only read when [req.body] is truthy. *)
Definition fileURL_of (req : request) : jsval :=
  let q := assoc_get (req_query req) "fileURL" in
  if truthy q then q
  else
    let b := req_body req in
    if truthy b then
      match js_get b "fileURL" with Some v => v | None => JUndefined end
    else b.

(** The value of [err.message || String(err)] on line 34: the [error]
    field, or the fault the [catch] block itself throws ([err] is [null]
    or [undefined], or [String(err)] throws). *)
Definition fault_message (object_to_string : list (string * jsval) -> result string)
    (err : jsval) : result jsval :=
  match js_get err "message" with
  | None => Throw (read_error err "message")
  | Some m =>
      if truthy m then Return m
      else
        match js_String object_to_string err with
        | Return s => Return (JStr s)
        | Throw e => Throw e
        end
  end.



Definition is_send (ev : event) : bool :=
  match ev with EvSend _ _ => true | _ => false end.

Definition is_fetch (ev : event) : bool :=
  match ev with EvFetch _ => true | _ => false end.

(** ** Concrete collaborators and runs *)

Definition pdf_bytes : list Byte.byte := [Byte.x25; Byte.x50; Byte.x44; Byte.x46].


Definition hello_text : string := "

Hello World
".

Definition hello_data : jsval := JObj [("numpages", JNum 1); ("text", JStr hello_text)].

Definition hello_parse (_ : list Byte.byte) : result jsval := Return hello_data.

(** A scanned PDF: [pdf-parse] gives only its page separators. *)
Definition blank_data : jsval := JObj [("numpages", JNum 2); ("text", JStr "

")].

Definition blank_parse (_ : list Byte.byte) : result jsval := Return blank_data.

Definition ok_response : fetch_response :=
  {| resp_ok := true; resp_arrayBuffer := Return pdf_bytes |}.

Definition not_found_response : fetch_response :=
  {| resp_ok := false; resp_arrayBuffer := Return [] |}.

Definition plain_to_string (_ : list (string * jsval)) : result string :=
  Return "[object Object]".

Definition ok_fetch (_ : jsval) : result fetch_response := Return ok_response.

Definition not_found_fetch (_ : jsval) : result fetch_response := Return not_found_response.

Definition url_a : jsval := JStr "https://example.com/a.pdf".

Definition req_q (v : jsval) : request :=
  {| req_query := [("fileURL", v)]; req_body := JUndefined |}.

Definition url_b : jsval := JStr "https://example.com/b.pdf".

(** [?fileURL=] with a JSON body naming another file. *)
Definition req_empty_query : request :=
  {| req_query := [("fileURL", JStr "")]; req_body := JObj [("fileURL", url_b)] |}.

Definition url_missing : jsval := JStr "https://missing.invalid/a.pdf".

Definition dns_message : string :=
  "request to https://missing.invalid/a.pdf failed, reason: getaddrinfo ENOTFOUND missing.invalid".

(** The [FetchError] [node-fetch] rejects with when the host name does
    not resolve. *)
Definition dns_error : jsval :=
  JObj [("name", JStr "FetchError"); ("message", JStr dns_message);
        ("type", JStr "system"); ("code", JStr "ENOTFOUND")].

Definition dns_fetch (_ : jsval) : result fetch_response := Throw dns_error.

(** A parse that rejects with [undefined]. *)
Definition undefined_parse (_ : list Byte.byte) : result jsval := Throw JUndefined.




Example handler_hello :
  handler ok_fetch hello_parse plain_to_string (req_q url_a)
  = (Return tt, [EvFetch url_a; EvArrayBuffer; EvParse pdf_bytes;
                 EvSend 200 (success_body "Hello World")]).
Proof. reflexivity. Qed.

Example handler_404 :
  handler not_found_fetch hello_parse plain_to_string (req_q url_a)
  = (Return tt, [EvFetch url_a; EvSend 400 unable_body]).
Proof. reflexivity. Qed.

Example handler_missing :
  handler ok_fetch hello_parse plain_to_string
    {| req_query := []; req_body := JObj [] |}
  = (Return tt, [EvSend 400 missing_body]).
Proof. reflexivity. Qed.

Example string_of_Z_ex : string_of_Z (-120) = "-120".
Proof. reflexivity. Qed.

(** ** Lemmas on the embedding *)



Lemma extract_text_cases (data : jsval) (tr : list event) :
  (exists t, extract_text data tr = (Return t, tr)) \/
  (exists msg, extract_text data tr = (Throw (type_error msg), tr)).
Proof.
  unfold extract_text, bind, get_prop, ret, throw.
  destruct (nullish data); [left; eexists; reflexivity|].
  destruct (js_get data "text") as [t|]; [|right; eexists; reflexivity].
  destruct (nullish t); [left; eexists; reflexivity|].
  destruct t; solve [left; eexists; reflexivity | right; eexists; reflexivity].
Qed.

Section Props.

Variable fetch : jsval -> result fetch_response.
Variable pdfParse : list Byte.byte -> result jsval.
Variable object_to_string : list (string * jsval) -> result string.

Lemma read_fileURL_ret (req : request) (tr : list event) :
  read_fileURL req tr = (Return (fileURL_of req), tr).
Proof.
  unfold read_fileURL, fileURL_of.
  destruct (truthy (assoc_get (req_query req) "fileURL")); [reflexivity|].
  unfold get_prop, ret.
  destruct (req_body req); cbn [js_get truthy];
    repeat match goal with |- context [if ?c then _ else _] => destruct c end;
    reflexivity.
Qed.

(** Once the value of lines 7-9 is known, the handler proceeds on it. *)
Lemma handler_unfold (req : request) :
  handler fetch pdfParse object_to_string req
  = try_catch
      (if negb (truthy (fileURL_of req)) then send 400 missing_body
       else
         _ <- emit (EvFetch (fileURL_of req)) ;;
         response <- lift (fetch (fileURL_of req)) ;;
         if negb (resp_ok response) then send 400 unable_body
         else
           _ <- emit EvArrayBuffer ;;
           buffer <- lift (resp_arrayBuffer response) ;;
           _ <- emit (EvParse buffer) ;;
           data <- lift (pdfParse buffer) ;;
           extractedText <- extract_text data ;;
           send 200 (success_body extractedText))
      (handler_catch object_to_string) [].
Proof.
  unfold handler, try_catch, handler_try at 1, bind at 1.
  rewrite read_fileURL_ret. reflexivity.
Qed.

Lemma handler_falsy_fileURL (req : request) :
  truthy (fileURL_of req) = false ->
  handler fetch pdfParse object_to_string req = (Return tt, [EvSend 400 missing_body]).
Proof.
  intros H. rewrite handler_unfold, H. reflexivity.
Qed.

(** The missing-parameter branch is taken when both sources give a
    falsy value. *)
Lemma fileURL_of_falsy (req : request) :
  truthy (assoc_get (req_query req) "fileURL") = false ->
  (truthy (req_body req) = false \/
   exists v, js_get (req_body req) "fileURL" = Some v /\ truthy v = false) ->
  truthy (fileURL_of req) = false.
Proof.
  intros Hq Hb. unfold fileURL_of. rewrite Hq.
  destruct Hb as [Hb | (v & Hv & Ht)].
  - rewrite Hb. exact Hb.
  - rewrite Hv. destruct (truthy (req_body req)) eqn:E; assumption.
Qed.

(** The path through a non-ok response. *)
Lemma handler_not_ok (req : request) (r : fetch_response) :
  truthy (fileURL_of req) = true ->
  fetch (fileURL_of req) = Return r ->
  resp_ok r = false ->
  handler fetch pdfParse object_to_string req
  = (Return tt, [EvFetch (fileURL_of req); EvSend 400 unable_body]).
Proof.
  intros Hurl Hf Hok. rewrite handler_unfold, Hurl.
  cbv [negb try_catch bind emit lift ret send]. rewrite Hf, Hok. reflexivity.
Qed.

(** The path up to [pdfParse] returning [data]: what follows is
    [extract_text data] and then the response. *)
Lemma handler_parsed (req : request) (r : fetch_response)
    (bytes : list Byte.byte) (data : jsval) :
  truthy (fileURL_of req) = true ->
  fetch (fileURL_of req) = Return r ->
  resp_ok r = true ->
  resp_arrayBuffer r = Return bytes ->
  pdfParse bytes = Return data ->
  handler fetch pdfParse object_to_string req
  = try_catch (extractedText <- extract_text data ;;
               send 200 (success_body extractedText))
      (handler_catch object_to_string)
      [EvFetch (fileURL_of req); EvArrayBuffer; EvParse bytes].
Proof.
  intros Hurl Hf Hok Hab Hp. rewrite handler_unfold, Hurl.
  cbv [negb try_catch bind emit lift ret send]. rewrite Hf, Hok, Hab, Hp.
  reflexivity.
Qed.

(** The [catch] block sends one 500 response carrying the value of
    [err.message || String(err)], or throws what that expression throws. *)
Lemma handler_catch_eq (err : jsval) (tr : list event) :
  handler_catch object_to_string err tr
  = match fault_message object_to_string err with
    | Return m => (Return tt, app tr [EvSend 500 (error_body m)])
    | Throw e => (Throw e, tr)
    end.
Proof.
  unfold handler_catch, fault_message, bind, get_prop, ret, throw.
  destruct (js_get err "message") as [m|]; [|reflexivity].
  destruct (truthy m); [reflexivity|].
  unfold lift, send, emit, ret, throw.
  destruct (js_String object_to_string err); reflexivity.
Qed.

Lemma handler_catch_fault (err m : jsval) (tr : list event) :
  fault_message object_to_string err = Return m ->
  handler_catch object_to_string err tr = (Return tt, app tr [EvSend 500 (error_body m)]).
Proof. intros H. rewrite handler_catch_eq, H. reflexivity. Qed.

(** The path through a [fetch] that throws. *)
Lemma handler_fetch_throws (req : request) (err m : jsval) :
  truthy (fileURL_of req) = true ->
  fetch (fileURL_of req) = Throw err ->
  fault_message object_to_string err = Return m ->
  handler fetch pdfParse object_to_string req
  = (Return tt, [EvFetch (fileURL_of req); EvSend 500 (error_body m)]).
Proof.
  intros Hurl Hf Hm. rewrite handler_unfold, Hurl.
  cbv [negb try_catch bind emit lift ret send throw]. rewrite Hf.
  exact (handler_catch_fault err m [EvFetch (fileURL_of req)] Hm).
Qed.

(** When lines 7-9 give a truthy value, the first event is its fetch. *)
Lemma handler_fetches_first (req : request) :
  truthy (fileURL_of req) = true ->
  exists rest, snd (handler fetch pdfParse object_to_string req)
               = EvFetch (fileURL_of req) :: rest.
Proof.
  intros Hurl. rewrite handler_unfold, Hurl.
  cbv [negb try_catch bind emit lift ret send throw]. cbn [app].
  destruct (fetch (fileURL_of req)) as [r|e].
  - destruct (resp_ok r); [|eexists; reflexivity].
    destruct (resp_arrayBuffer r) as [bytes|e].
    + destruct (pdfParse bytes) as [data|e].
      * cbn [app]. destruct (extract_text_cases data
                    [EvFetch (fileURL_of req); EvArrayBuffer; EvParse bytes])
          as [[t Ex] | [msg Ex]]; rewrite Ex; [eexists; reflexivity|].
        rewrite handler_catch_eq.
        destruct (fault_message object_to_string (type_error msg)); eexists; reflexivity.
      * rewrite handler_catch_eq.
        destruct (fault_message object_to_string e); eexists; reflexivity.
    + rewrite handler_catch_eq.
      destruct (fault_message object_to_string e); eexists; reflexivity.
  - rewrite handler_catch_eq.
    destruct (fault_message object_to_string e); eexists; reflexivity.
Qed.

End Props.


(** ** Lemmas on [trim] *)

Lemma drop_ws_suffix (l : list ascii) : exists p, l = app p (drop_ws l).
Proof.
  induction l as [|c l IH]; [exists []; reflexivity|].
  simpl. destruct (is_ws c).
  - destruct IH as [p Hp]. exists (c :: p). simpl. f_equal. exact Hp.
  - exists []. reflexivity.
Qed.

Lemma drop_ws_head (l : list ascii) (c : ascii) :
  hd_error (drop_ws l) = Some c -> is_ws c = false.
Proof.
  induction l as [|c' l IH]; simpl; [discriminate|].
  destruct (is_ws c') eqn:Hc; [exact IH|].
  simpl. intros H. injection H as <-. exact Hc.
Qed.

Lemma drop_ws_all_ws (l : list ascii) :
  forallb is_ws l = true -> drop_ws l = [].
Proof.
  induction l as [|c l IH]; simpl; [reflexivity|].
  intros H. apply andb_prop in H as [Hc Hl]. rewrite Hc. exact (IH Hl).
Qed.

(** The first and the last character of a string, when it has them,
    are not white space. *)
Definition edge_trimmed (s : string) : Prop :=
  forall c,
    hd_error (list_ascii_of_string s) = Some c \/
    hd_error (rev (list_ascii_of_string s)) = Some c ->
    is_ws c = false.

Lemma trim_edge_trimmed (s : string) : edge_trimmed (trim s).
Proof.
  unfold edge_trimmed, trim. rewrite list_ascii_of_string_of_list_ascii.
  set (m := drop_ws (list_ascii_of_string s)).
  set (k := drop_ws (rev m)).
  intros c [Hh | Hl].
  - destruct (drop_ws_suffix (rev m)) as [p Hp]. fold k in Hp.
    assert (Hm : m = app (rev k) (rev p)).
    { rewrite <- (rev_involutive m), Hp, rev_app_distr. reflexivity. }
    apply (drop_ws_head (list_ascii_of_string s)). fold m.
    rewrite Hm. destruct (rev k) as [|c' r]; [discriminate|exact Hh].
  - rewrite rev_involutive in Hl. exact (drop_ws_head _ _ Hl).
Qed.

Lemma trim_all_ws (s : string) :
  forallb is_ws (list_ascii_of_string s) = true -> trim s = "".
Proof.
  intros H. unfold trim. rewrite (drop_ws_all_ws _ H). reflexivity.
Qed.

(** ** Claims *)

Section Claims.

Variable fetch : jsval -> result fetch_response.
Variable pdfParse : list Byte.byte -> result jsval.
Variable object_to_string : list (string * jsval) -> result string.

(** C1: when the fetch of [fileURL] returns an ok response whose bytes
    [pdf-parse] accepts with a text [t], the handler sends exactly one
    response, status 200 with [{ok: true, text: trim t}], and [trim t]
    neither starts nor ends with white space. *)
Theorem valid_pdf_responds_200 (req : request) (r : fetch_response)
    (bytes : list Byte.byte) (data : jsval) (t : string)
    (Hurl : truthy (fileURL_of req) = true)
    (Hf : fetch (fileURL_of req) = Return r)
    (Hok : resp_ok r = true)
    (Hab : resp_arrayBuffer r = Return bytes)
    (Hp : pdfParse bytes = Return data)
    (Ht : js_get data "text" = Some (JStr t)) :
  handler fetch pdfParse object_to_string req
  = (Return tt, [EvFetch (fileURL_of req); EvArrayBuffer; EvParse bytes;
                 EvSend 200 (success_body (trim t))])
  /\ edge_trimmed (trim t).
Proof.
  split; [|apply trim_edge_trimmed].
  rewrite (handler_parsed fetch pdfParse object_to_string req r bytes data
             Hurl Hf Hok Hab Hp).
  destruct data; try discriminate Ht.
  cbv [try_catch bind extract_text get_prop ret send emit].
  rewrite Ht. reflexivity.
Qed.

(** C2: when [fileURL] is absent from the query and from the body, the
    handler sends status 400 with [{ok: false, error: "Missing fileURL
    parameter"}] and nothing else, and issues no fetch. *)
Theorem missing_fileURL_responds_400 (req : request)
    (Hq : assoc_get (req_query req) "fileURL" = JUndefined)
    (Hb : truthy (req_body req) = false \/
          js_get (req_body req) "fileURL" = Some JUndefined) :
  handler fetch pdfParse object_to_string req = (Return tt, [EvSend 400 missing_body])
  /\ forall ev, In ev (snd (handler fetch pdfParse object_to_string req)) ->
                is_fetch ev = false.
Proof.
  assert (H : handler fetch pdfParse object_to_string req
              = (Return tt, [EvSend 400 missing_body])).
  { apply handler_falsy_fileURL, fileURL_of_falsy.
    - rewrite Hq. reflexivity.
    - destruct Hb as [Hb | Hb]; [left; exact Hb | right; exists JUndefined; split; auto]. }
  split; [exact H|]. rewrite H. simpl. intros ev [<- | []]. reflexivity.
Qed.

(** C3: when the fetch of [fileURL] completes with a response that is not
    ok, whatever its status, the handler sends status 400 with the fixed
    body [{ok: false, error: "Unable to fetch file from provided URL"}],
    and neither buffers nor parses the body. *)
Theorem non_ok_fetch_responds_400 (req : request) (r : fetch_response)
    (Hurl : truthy (fileURL_of req) = true)
    (Hf : fetch (fileURL_of req) = Return r)
    (Hok : resp_ok r = false) :
  handler fetch pdfParse object_to_string req
  = (Return tt, [EvFetch (fileURL_of req); EvSend 400 unable_body]).
Proof. exact (handler_not_ok fetch pdfParse object_to_string req r Hurl Hf Hok). Qed.

(** C6: when [pdf-parse] succeeds but [data] has no [text] (or [data]
    itself is [null]/[undefined]), or the text is only white space, the
    handler sends status 200 with [{ok: true, text: ""}]. *)
Theorem no_text_responds_empty (req : request) (r : fetch_response)
    (bytes : list Byte.byte) (data : jsval)
    (Hurl : truthy (fileURL_of req) = true)
    (Hf : fetch (fileURL_of req) = Return r)
    (Hok : resp_ok r = true)
    (Hab : resp_arrayBuffer r = Return bytes)
    (Hp : pdfParse bytes = Return data)
    (Hnt : nullish data = true \/
           js_get data "text" = Some JUndefined \/
           js_get data "text" = Some JNull \/
           exists t, js_get data "text" = Some (JStr t) /\
                     forallb is_ws (list_ascii_of_string t) = true) :
  handler fetch pdfParse object_to_string req
  = (Return tt, [EvFetch (fileURL_of req); EvArrayBuffer; EvParse bytes;
                 EvSend 200 (success_body "")]).
Proof.
  rewrite (handler_parsed fetch pdfParse object_to_string req r bytes data
             Hurl Hf Hok Hab Hp).
  destruct Hnt as [Hn | [Hu | [Hn | (t & Ht & Hw)]]].
  - destruct data; try discriminate Hn; reflexivity.
  - destruct data; try discriminate Hu;
      cbv [try_catch bind extract_text get_prop ret send emit nullish];
      rewrite Hu; reflexivity.
  - destruct data; try discriminate Hn;
      cbv [try_catch bind extract_text get_prop ret send emit nullish];
      rewrite Hn; reflexivity.
  - destruct data; try discriminate Ht;
      cbv [try_catch bind extract_text get_prop ret send emit nullish];
      rewrite Ht, (trim_all_ws t Hw); reflexivity.
Qed.

(** C10: when [fileURL] is the empty string or absent in the query, and
    the empty string or absent in the body, the handler treats it as
    missing: status 400 with [{ok: false, error: "Missing fileURL
    parameter"}], and no fetch. *)
Theorem empty_fileURL_responds_400 (req : request)
    (Hq : assoc_get (req_query req) "fileURL" = JUndefined \/
          assoc_get (req_query req) "fileURL" = JStr "")
    (Hb : truthy (req_body req) = false \/
          js_get (req_body req) "fileURL" = Some JUndefined \/
          js_get (req_body req) "fileURL" = Some (JStr "")) :
  handler fetch pdfParse object_to_string req = (Return tt, [EvSend 400 missing_body])
  /\ forall ev, In ev (snd (handler fetch pdfParse object_to_string req)) ->
                is_fetch ev = false.
Proof.
  assert (H : handler fetch pdfParse object_to_string req
              = (Return tt, [EvSend 400 missing_body])).
  { apply handler_falsy_fileURL, fileURL_of_falsy.
    - destruct Hq as [Hq | Hq]; rewrite Hq; reflexivity.
    - destruct Hb as [Hb | [Hb | Hb]]; [left; exact Hb | right .. ].
      + exists JUndefined; split; auto.
      + exists (JStr ""); split; auto. }
  split; [exact H|]. rewrite H. simpl. intros ev [<- | []]. reflexivity.
Qed.

(** C4 (as amended): the fetch step has two failure classes.  A fetch
    that completes with a non-ok status, whatever the status (404, 500
    from the origin, ...), gives status 400 and the one fixed message; a
    fetch that throws (DNS failure, refused connection) gives status 500
    with [err.message || String(err)] for its fault [err], whenever that
    expression yields a value: the fault's message when truthy (the
    [FetchError] text for a DNS failure), [String(err)] otherwise. *)
Theorem fetch_failures_by_kind (req : request)
    (Hurl : truthy (fileURL_of req) = true) :
  (forall r, fetch (fileURL_of req) = Return r -> resp_ok r = false ->
     handler fetch pdfParse object_to_string req
     = (Return tt, [EvFetch (fileURL_of req); EvSend 400 unable_body])) /\
  (forall err m, fetch (fileURL_of req) = Throw err ->
     fault_message object_to_string err = Return m ->
     handler fetch pdfParse object_to_string req
     = (Return tt, [EvFetch (fileURL_of req); EvSend 500 (error_body m)])).
Proof.
  split.
  - intros r Hf Hok. exact (handler_not_ok fetch pdfParse object_to_string req r Hurl Hf Hok).
  - intros err m Hf Hm.
    exact (handler_fetch_throws fetch pdfParse object_to_string req err m Hurl Hf Hm).
Qed.

(** C7 (as amended): the handler fetches the query's [fileURL] whenever
    that value is truthy (present and not the empty string); when it is
    absent or empty, it fetches the [fileURL] field of the request body. *)
Theorem fileURL_source_precedence (req : request) :
  (truthy (assoc_get (req_query req) "fileURL") = true ->
   exists rest, snd (handler fetch pdfParse object_to_string req)
                = EvFetch (assoc_get (req_query req) "fileURL") :: rest) /\
  (truthy (assoc_get (req_query req) "fileURL") = false ->
   forall v, js_get (req_body req) "fileURL" = Some v -> truthy v = true ->
   exists rest, snd (handler fetch pdfParse object_to_string req) = EvFetch v :: rest).
Proof.
  split.
  - intros Hq.
    assert (E : fileURL_of req = assoc_get (req_query req) "fileURL").
    { unfold fileURL_of. rewrite Hq. reflexivity. }
    rewrite <- E. apply handler_fetches_first. rewrite E. exact Hq.
  - intros Hq v Hv Ht.
    assert (E : fileURL_of req = v).
    { unfold fileURL_of. rewrite Hq. cbv zeta. rewrite Hv.
      destruct (req_body req); cbn [js_get] in Hv; try discriminate Hv;
        injection Hv as <-; try discriminate Ht; reflexivity. }
    rewrite <- E. apply handler_fetches_first. rewrite E. exact Ht.
Qed.


End Claims.

(** C9: the handler is deterministic: two invocations on the same request,
    whose [fetch] behaves the same on the requested location and whose
    [pdfParse] behaves the same on every buffer, send the same responses
    (hence the same [text]) and end the same way. *)
Theorem handler_deterministic
    (fetch1 fetch2 : jsval -> result fetch_response)
    (parse1 parse2 : list Byte.byte -> result jsval)
    (object_to_string : list (string * jsval) -> result string) (req : request)
    (Hf : fetch1 (fileURL_of req) = fetch2 (fileURL_of req))
    (Hp : forall bytes, parse1 bytes = parse2 bytes) :
  handler fetch1 parse1 object_to_string req = handler fetch2 parse2 object_to_string req.
Proof.
  rewrite !handler_unfold.
  destruct (truthy (fileURL_of req)); [|reflexivity].
  cbv [negb try_catch bind emit lift ret send throw]. rewrite Hf.
  destruct (fetch2 (fileURL_of req)) as [r|e]; [|reflexivity].
  destruct (resp_ok r); [|reflexivity].
  destruct (resp_arrayBuffer r) as [bytes|e]; [|reflexivity].
  rewrite Hp. reflexivity.
Qed.

(** C4 refuted as stated: a DNS failure makes [node-fetch] reject, and the
    handler answers 500 with the [FetchError]'s message, not 400. *)
Lemma dns_failure_responds_500 :
  handler dns_fetch hello_parse plain_to_string (req_q url_missing)
  = (Return tt, [EvFetch url_missing; EvSend 500 (error_body (JStr dns_message))])
  /\ forall body,
       ~ In (EvSend 400 body) (snd (handler dns_fetch hello_parse plain_to_string (req_q url_missing))).
Proof.
  assert (H : handler dns_fetch hello_parse plain_to_string (req_q url_missing)
              = (Return tt, [EvFetch url_missing; EvSend 500 (error_body (JStr dns_message))])).
  { reflexivity. }
  split; [exact H|]. rewrite H. simpl. intros body [E | [E | []]]; discriminate E.
Qed.

(** C5: [pdfParse] rejecting with [undefined] makes [err.message] throw
    inside the [catch] block: the handler rejects with a [TypeError] and
    sends no response at all. *)
Theorem nullish_fault_sends_no_response :
  handler ok_fetch undefined_parse plain_to_string (req_q url_a)
  = (Throw (type_error "Cannot read properties of undefined (reading 'message')"),
     [EvFetch url_a; EvArrayBuffer; EvParse pdf_bytes])
  /\ forall ev, In ev (snd (handler ok_fetch undefined_parse plain_to_string (req_q url_a))) ->
                is_send ev = false.
Proof.
  assert (H : handler ok_fetch undefined_parse plain_to_string (req_q url_a)
              = (Throw (type_error "Cannot read properties of undefined (reading 'message')"),
                 [EvFetch url_a; EvArrayBuffer; EvParse pdf_bytes])).
  { reflexivity. }
  split; [exact H|]. rewrite H. simpl. intros ev [<- | [<- | [<- | []]]]; reflexivity.
Qed.

(** C7 refuted as stated: with [?fileURL=] present but empty, the handler
    fetches the body's [fileURL] instead of the query's value. *)
Lemma empty_query_uses_body :
  assoc_get (req_query req_empty_query) "fileURL" = JStr "" /\
  hd_error (snd (handler ok_fetch hello_parse plain_to_string req_empty_query))
  = Some (EvFetch url_b) /\
  url_b <> JStr "".
Proof. split; [reflexivity | split; [reflexivity | discriminate]]. Qed.


(** ** Witnesses *)

Lemma valid_pdf_responds_200_witness :
  handler ok_fetch hello_parse plain_to_string (req_q url_a)
  = (Return tt, [EvFetch url_a; EvArrayBuffer; EvParse pdf_bytes;
                 EvSend 200 (success_body (trim hello_text))])
  /\ edge_trimmed (trim hello_text).
Proof.
  refine (valid_pdf_responds_200 ok_fetch hello_parse plain_to_string (req_q url_a)
            ok_response pdf_bytes hello_data hello_text _ _ _ _ _ _); reflexivity.
Defined.

Lemma missing_fileURL_responds_400_witness :
  let req := {| req_query := []; req_body := JObj [("name", JStr "report")] |} in
  handler ok_fetch hello_parse plain_to_string req = (Return tt, [EvSend 400 missing_body])
  /\ forall ev, In ev (snd (handler ok_fetch hello_parse plain_to_string req)) ->
                is_fetch ev = false.
Proof.
  intros req.
  refine (missing_fileURL_responds_400 ok_fetch hello_parse plain_to_string req _ _);
    [reflexivity | right; reflexivity].
Defined.

Lemma non_ok_fetch_responds_400_witness :
  handler not_found_fetch hello_parse plain_to_string (req_q url_a)
  = (Return tt, [EvFetch url_a; EvSend 400 unable_body]).
Proof.
  refine (non_ok_fetch_responds_400 not_found_fetch hello_parse plain_to_string (req_q url_a)
            not_found_response _ _ _); reflexivity.
Defined.

Lemma no_text_responds_empty_witness :
  handler ok_fetch blank_parse plain_to_string (req_q url_a)
  = (Return tt, [EvFetch url_a; EvArrayBuffer; EvParse pdf_bytes; EvSend 200 (success_body "")]).
Proof.
  refine (no_text_responds_empty ok_fetch blank_parse plain_to_string (req_q url_a)
            ok_response pdf_bytes blank_data _ _ _ _ _ _); try reflexivity.
  right; right; right. eexists; split; reflexivity.
Defined.

Lemma empty_fileURL_responds_400_witness :
  let req := {| req_query := [("fileURL", JStr "")];
                req_body := JObj [("fileURL", JStr "")] |} in
  handler ok_fetch hello_parse plain_to_string req = (Return tt, [EvSend 400 missing_body])
  /\ forall ev, In ev (snd (handler ok_fetch hello_parse plain_to_string req)) ->
                is_fetch ev = false.
Proof.
  intros req.
  refine (empty_fileURL_responds_400 ok_fetch hello_parse plain_to_string req _ _);
    [right; reflexivity | right; right; reflexivity].
Defined.

Lemma fetch_failures_by_kind_witness :
  handler not_found_fetch hello_parse plain_to_string (req_q url_a)
  = (Return tt, [EvFetch url_a; EvSend 400 unable_body]) /\
  handler dns_fetch hello_parse plain_to_string (req_q url_missing)
  = (Return tt, [EvFetch url_missing; EvSend 500 (error_body (JStr dns_message))]).
Proof.
  split.
  - refine (proj1 (fetch_failures_by_kind not_found_fetch hello_parse plain_to_string
                     (req_q url_a) _) not_found_response _ _); reflexivity.
  - refine (proj2 (fetch_failures_by_kind dns_fetch hello_parse plain_to_string
                     (req_q url_missing) _) dns_error (JStr dns_message) _ _); reflexivity.
Defined.

Lemma fileURL_source_precedence_witness :
  (exists rest, snd (handler ok_fetch hello_parse plain_to_string (req_q url_a))
                = EvFetch url_a :: rest) /\
  (exists rest, snd (handler ok_fetch hello_parse plain_to_string req_empty_query)
                = EvFetch url_b :: rest).
Proof.
  split.
  - refine (proj1 (fileURL_source_precedence ok_fetch hello_parse plain_to_string
                     (req_q url_a)) _); reflexivity.
  - refine (proj2 (fileURL_source_precedence ok_fetch hello_parse plain_to_string
                     req_empty_query) _ url_b _ _); reflexivity.
Defined.


Lemma handler_deterministic_witness :
  handler ok_fetch hello_parse plain_to_string (req_q url_a)
  = handler (fun u => if truthy u then Return ok_response else Return not_found_response)
      (fun bytes => Return hello_data) plain_to_string (req_q url_a).
Proof.
  refine (handler_deterministic ok_fetch _ hello_parse _ plain_to_string (req_q url_a) _ _);
    [reflexivity | intros bytes; reflexivity].
Defined.

(** ** Execution paths of the handler *)

Section Paths.

Variable fetch : jsval -> result fetch_response.
Variable pdfParse : list Byte.byte -> result jsval.
Variable object_to_string : list (string * jsval) -> result string.

(** The seven ways through lines 6-36, each with the outcome it produces. *)
Inductive handler_path (req : request) : result unit * list event -> Prop :=
| PathMissing :
    truthy (fileURL_of req) = false ->
    handler_path req (Return tt, [EvSend 400 missing_body])
| PathFetchThrows (err : jsval) :
    truthy (fileURL_of req) = true ->
    fetch (fileURL_of req) = Throw err ->
    handler_path req (handler_catch object_to_string err [EvFetch (fileURL_of req)])
| PathNotOk (r : fetch_response) :
    truthy (fileURL_of req) = true ->
    fetch (fileURL_of req) = Return r -> resp_ok r = false ->
    handler_path req (Return tt, [EvFetch (fileURL_of req); EvSend 400 unable_body])
| PathBufferThrows (r : fetch_response) (err : jsval) :
    truthy (fileURL_of req) = true ->
    fetch (fileURL_of req) = Return r -> resp_ok r = true ->
    resp_arrayBuffer r = Throw err ->
    handler_path req (handler_catch object_to_string err
                        [EvFetch (fileURL_of req); EvArrayBuffer])
| PathParseThrows (r : fetch_response) (bytes : list Byte.byte) (err : jsval) :
    truthy (fileURL_of req) = true ->
    fetch (fileURL_of req) = Return r -> resp_ok r = true ->
    resp_arrayBuffer r = Return bytes -> pdfParse bytes = Throw err ->
    handler_path req (handler_catch object_to_string err
                        [EvFetch (fileURL_of req); EvArrayBuffer; EvParse bytes])
| PathText (r : fetch_response) (bytes : list Byte.byte) (data : jsval) (t : string) :
    truthy (fileURL_of req) = true ->
    fetch (fileURL_of req) = Return r -> resp_ok r = true ->
    resp_arrayBuffer r = Return bytes -> pdfParse bytes = Return data ->
    extract_text data [] = (Return t, []) ->
    handler_path req (Return tt, [EvFetch (fileURL_of req); EvArrayBuffer; EvParse bytes;
                                  EvSend 200 (success_body t)])
| PathTextThrows (r : fetch_response) (bytes : list Byte.byte) (data : jsval) (msg : string) :
    truthy (fileURL_of req) = true ->
    fetch (fileURL_of req) = Return r -> resp_ok r = true ->
    resp_arrayBuffer r = Return bytes -> pdfParse bytes = Return data ->
    extract_text data [] = (Throw (type_error msg), []) ->
    handler_path req (handler_catch object_to_string (type_error msg)
                        [EvFetch (fileURL_of req); EvArrayBuffer; EvParse bytes]).

(** [extract_text] does not depend on the trace it runs on. *)
Lemma extract_text_trace (data : jsval) (tr : list event) :
  extract_text data tr = (fst (extract_text data []), tr).
Proof.
  unfold extract_text, bind, get_prop, ret, throw.
  destruct (nullish data); [reflexivity|].
  destruct (js_get data "text") as [t|]; [|reflexivity].
  destruct (nullish t); [reflexivity|]. destruct t; reflexivity.
Qed.

Lemma handler_path_complete (req : request) :
  handler_path req (handler fetch pdfParse object_to_string req).
Proof.
  destruct (truthy (fileURL_of req)) eqn:Hurl.
  2:{ rewrite (handler_falsy_fileURL fetch pdfParse object_to_string req Hurl).
      exact (PathMissing req Hurl). }
  rewrite handler_unfold, Hurl.
  cbv [negb try_catch bind emit lift ret send throw]. cbn [app].
  destruct (fetch (fileURL_of req)) as [r|err] eqn:Hf.
  2:{ exact (PathFetchThrows req err Hurl Hf). }
  destruct (resp_ok r) eqn:Hok.
  2:{ exact (PathNotOk req r Hurl Hf Hok). }
  destruct (resp_arrayBuffer r) as [bytes|err] eqn:Hab.
  2:{ exact (PathBufferThrows req r err Hurl Hf Hok Hab). }
  destruct (pdfParse bytes) as [data|err] eqn:Hp.
  2:{ exact (PathParseThrows req r bytes err Hurl Hf Hok Hab Hp). }
  cbn [app].
  destruct (extract_text_cases data []) as [[t Ex] | [msg Ex]];
    rewrite extract_text_trace, Ex; cbn [fst].
  - exact (PathText req r bytes data t Hurl Hf Hok Hab Hp Ex).
  - exact (PathTextThrows req r bytes data msg Hurl Hf Hok Hab Hp Ex).
Qed.

(** The [catch] block either sends one 500 response carrying the value of
    [err.message || String(err)], or rejects with what that expression
    throws. *)
Lemma handler_catch_cases (err : jsval) (tr : list event) :
  (exists m, fault_message object_to_string err = Return m /\
     handler_catch object_to_string err tr = (Return tt, app tr [EvSend 500 (error_body m)])) \/
  (exists e, fault_message object_to_string err = Throw e /\
     handler_catch object_to_string err tr = (Throw e, tr)).
Proof.
  rewrite handler_catch_eq.
  destruct (fault_message object_to_string err) as [m|e];
    [left; exists m | right; exists e]; split; reflexivity.
Qed.

End Paths.

(** ** Further properties of the code *)

Lemma drop_ws_keep (l : list ascii) :
  (forall c, hd_error l = Some c -> is_ws c = false) -> drop_ws l = l.
Proof.
  destruct l as [|c l]; simpl; [reflexivity|].
  intros H. rewrite (H c eq_refl). reflexivity.
Qed.

Lemma drop_ws_split (l : list ascii) :
  exists p, l = app p (drop_ws l) /\ forallb is_ws p = true.
Proof.
  induction l as [|c l IH]; [exists []; split; reflexivity|].
  simpl. destruct (is_ws c) eqn:Hc.
  - destruct IH as [p [Hp Hw]]. exists (c :: p). simpl. rewrite Hc, <- Hp. split; auto.
  - exists []. split; reflexivity.
Qed.

Lemma forallb_rev_ws (l : list ascii) :
  forallb is_ws l = true -> forallb is_ws (rev l) = true.
Proof.
  induction l as [|c l IH]; simpl; [reflexivity|].
  intros H. apply andb_prop in H as [Hc Hl].
  rewrite forallb_app, IH by exact Hl. simpl. rewrite Hc. reflexivity.
Qed.

(** X1: the text the handler sends is a fixed point of [trim]: trimming
    it again changes nothing. *)
Theorem trim_idempotent (s : string) : trim (trim s) = trim s.
Proof.
  pose proof (trim_edge_trimmed s) as He. unfold edge_trimmed in He.
  unfold trim at 1.
  rewrite (drop_ws_keep (list_ascii_of_string (trim s)))
    by (intros c Hc; apply He; left; exact Hc).
  rewrite (drop_ws_keep (rev (list_ascii_of_string (trim s))))
    by (intros c Hc; apply He; right; exact Hc).
  rewrite rev_involutive. apply string_of_list_ascii_of_string.
Qed.

(** X2: [trim] only removes white space at the two ends: the input is
    the result with a white-space prefix and a white-space suffix. *)
Theorem trim_infix (s : string) :
  exists pre post,
    list_ascii_of_string s = app pre (app (list_ascii_of_string (trim s)) post) /\
    forallb is_ws pre = true /\ forallb is_ws post = true.
Proof.
  unfold trim. rewrite list_ascii_of_string_of_list_ascii.
  destruct (drop_ws_split (list_ascii_of_string s)) as [p [Hp Hpw]].
  set (m := drop_ws (list_ascii_of_string s)) in *.
  destruct (drop_ws_split (rev m)) as [q [Hq Hqw]].
  set (k := drop_ws (rev m)) in *.
  exists p, (rev q). split; [|split; [exact Hpw | exact (forallb_rev_ws q Hqw)]].
  rewrite Hp at 1. f_equal.
  rewrite <- (rev_involutive m), Hq, rev_app_distr. reflexivity.
Qed.

Section Extra.

Variable fetch : jsval -> result fetch_response.
Variable pdfParse : list Byte.byte -> result jsval.
Variable object_to_string : list (string * jsval) -> result string.

(** X3: when [pdf-parse]'s [data.text] is present but not a string (a
    number, a boolean, an array or an object), [data?.text?.trim()] calls
    a non-function; the [TypeError] is caught and the handler answers 500
    with its message. *)
Theorem non_string_text_responds_500 (req : request) (r : fetch_response)
    (bytes : list Byte.byte) (data v : jsval)
    (Hurl : truthy (fileURL_of req) = true)
    (Hf : fetch (fileURL_of req) = Return r)
    (Hok : resp_ok r = true)
    (Hab : resp_arrayBuffer r = Return bytes)
    (Hp : pdfParse bytes = Return data)
    (Ht : js_get data "text" = Some v)
    (Hv : nullish v = false)
    (Hns : forall s, v <> JStr s) :
  handler fetch pdfParse object_to_string req
  = (Return tt, [EvFetch (fileURL_of req); EvArrayBuffer; EvParse bytes;
                 EvSend 500 (error_body (JStr "data?.text?.trim is not a function"))]).
Proof.
  rewrite (handler_parsed fetch pdfParse object_to_string req r bytes data
             Hurl Hf Hok Hab Hp).
  destruct data; cbn [js_get] in Ht; try discriminate Ht;
    try (injection Ht as <-; discriminate Hv).
  injection Ht as Ht.
  cbv [try_catch bind extract_text get_prop js_get ret send emit nullish throw].
  rewrite Ht. destruct v; try discriminate Hv;
    try (exfalso; eapply Hns; reflexivity); reflexivity.
Qed.

(** X4: a request body that is not an object (a raw text body, a
    number, an array, [null]) never supplies the location: without a
    truthy query value the handler answers 400 "Missing fileURL
    parameter" and fetches nothing. *)
Theorem non_object_body_is_missing (req : request)
    (Hq : truthy (assoc_get (req_query req) "fileURL") = false)
    (Hb : forall props, req_body req <> JObj props) :
  handler fetch pdfParse object_to_string req = (Return tt, [EvSend 400 missing_body]).
Proof.
  apply handler_falsy_fileURL, fileURL_of_falsy; [exact Hq|].
  destruct (req_body req) eqn:E; try (left; reflexivity);
    try (exfalso; eapply Hb; reflexivity);
    right; exists JUndefined; split; reflexivity.
Qed.

End Extra.

Section AllPaths.

Variable fetch : jsval -> result fetch_response.
Variable pdfParse : list Byte.byte -> result jsval.
Variable object_to_string : list (string * jsval) -> result string.

(** Case analysis on the path a run of the handler takes, with the
    outcome of the [catch] block computed. *)
Ltac on_paths req :=
  generalize (handler_path_complete fetch pdfParse object_to_string req);
  generalize (handler fetch pdfParse object_to_string req);
  intros out P; destruct P;
  try match goal with
      | |- context [handler_catch ?o ?e ?tr] =>
          destruct (handler_catch_cases o e tr) as [(?m & ?Hm & ->) | (?ex & ?Hm & ->)]
      end.

Ltac in_cases H :=
  simpl in H; repeat destruct H as [H | H]; try contradiction; try discriminate H.

(** X5: the handler's events come in pipeline order and nothing repeats:
    a prefix of [fetch(fileURL)], [arrayBuffer()], [pdfParse(buffer)],
    followed by at most one response, which is the last event. *)
Theorem handler_trace_order (req : request) :
  exists (n : nat) (bytes : list Byte.byte) (post : list event),
    snd (handler fetch pdfParse object_to_string req)
    = app (firstn n [EvFetch (fileURL_of req); EvArrayBuffer; EvParse bytes]) post /\
    (post = [] \/ exists status body, post = [EvSend status body]).
Proof.
  on_paths req;
  solve [ exists 0%nat, nil; eexists; split; [reflexivity|];
          solve [left; reflexivity | right; do 2 eexists; reflexivity]
        | exists 1%nat, nil; eexists; split; [reflexivity|];
          solve [left; reflexivity | right; do 2 eexists; reflexivity]
        | exists 2%nat, nil; eexists; split; [reflexivity|];
          solve [left; reflexivity | right; do 2 eexists; reflexivity]
        | exists 3%nat; eexists; eexists; split; [reflexivity|];
          solve [left; reflexivity | right; do 2 eexists; reflexivity] ].
Qed.

(** X6: the handler hands bytes to [pdfParse] only after an ok response,
    and those bytes are exactly what [arrayBuffer()] returned. *)
Theorem parse_only_after_ok_fetch (req : request) (bytes : list Byte.byte)
    (Hin : In (EvParse bytes) (snd (handler fetch pdfParse object_to_string req))) :
  truthy (fileURL_of req) = true /\
  exists r, fetch (fileURL_of req) = Return r /\ resp_ok r = true /\
            resp_arrayBuffer r = Return bytes.
Proof.
  revert Hin. on_paths req; intros Hin; in_cases Hin;
    injection Hin as <-;
    (split; [assumption | eexists; split; [eassumption | split; assumption]]).
Qed.

(** X7: the response is exactly the single 400 "Missing fileURL
    parameter" precisely when the value of lines 7-9 is falsy. *)
Theorem missing_response_iff_falsy (req : request) :
  snd (handler fetch pdfParse object_to_string req) = [EvSend 400 missing_body]
  <-> truthy (fileURL_of req) = false.
Proof.
  on_paths req; split; intros Hx; try assumption; try reflexivity;
    try discriminate Hx; congruence.
Qed.


(** X9: a 200 response comes only from a run where the fetch gave an ok
    response, its body was buffered, [pdfParse] returned [data], and the
    text is what [data?.text?.trim() ?? ""] gives for that [data]. *)
Theorem success_response_provenance (req : request) (body : jsval)
    (Hin : In (EvSend 200 body) (snd (handler fetch pdfParse object_to_string req))) :
  exists r bytes data t,
    fetch (fileURL_of req) = Return r /\ resp_ok r = true /\
    resp_arrayBuffer r = Return bytes /\ pdfParse bytes = Return data /\
    extract_text data [] = (Return t, []) /\ body = success_body t.
Proof.
  revert Hin. on_paths req; intros Hin; in_cases Hin.
  injection Hin as <-. exists r, bytes, data, t. repeat split; assumption.
Qed.

(** X10: a 400 response is either "Missing fileURL parameter", sent when
    lines 7-9 give a falsy value, or "Unable to fetch file from provided
    URL", sent when the fetch completed with a response that is not ok. *)
Theorem client_error_provenance (req : request) (body : jsval)
    (Hin : In (EvSend 400 body) (snd (handler fetch pdfParse object_to_string req))) :
  (truthy (fileURL_of req) = false /\ body = missing_body) \/
  (truthy (fileURL_of req) = true /\ body = unable_body /\
   exists r, fetch (fileURL_of req) = Return r /\ resp_ok r = false).
Proof.
  revert Hin. on_paths req; intros Hin; in_cases Hin; injection Hin as <-.
  - left. split; [assumption | reflexivity].
  - right. split; [assumption|]. split; [reflexivity|]. exists r. split; assumption.
Qed.

End AllPaths.

(** ** Witnesses of the further properties *)

(** [pdf-parse] output whose [text] is a number. *)
Definition numeric_text_parse (_ : list Byte.byte) : result jsval :=
  Return (JObj [("numpages", JNum 1); ("text", JNum 5)]).

Lemma non_string_text_responds_500_witness :
  handler ok_fetch numeric_text_parse plain_to_string (req_q url_a)
  = (Return tt, [EvFetch url_a; EvArrayBuffer; EvParse pdf_bytes;
                 EvSend 500 (error_body (JStr "data?.text?.trim is not a function"))]).
Proof.
  refine (non_string_text_responds_500 ok_fetch numeric_text_parse plain_to_string
            (req_q url_a) ok_response pdf_bytes
            (JObj [("numpages", JNum 1); ("text", JNum 5)]) (JNum 5)
            _ _ _ _ _ _ _ _); try reflexivity.
  intros s H. discriminate H.
Defined.

Lemma non_object_body_is_missing_witness :
  handler ok_fetch hello_parse plain_to_string
    {| req_query := []; req_body := JStr "https://example.com/a.pdf" |}
  = (Return tt, [EvSend 400 missing_body]).
Proof.
  refine (non_object_body_is_missing ok_fetch hello_parse plain_to_string
            {| req_query := []; req_body := JStr "https://example.com/a.pdf" |} _ _);
    [reflexivity | intros props H; discriminate H].
Defined.

Lemma parse_only_after_ok_fetch_witness :
  truthy url_a = true /\
  exists r, ok_fetch url_a = Return r /\ resp_ok r = true /\ resp_arrayBuffer r = Return pdf_bytes.
Proof.
  refine (parse_only_after_ok_fetch ok_fetch hello_parse plain_to_string (req_q url_a)
            pdf_bytes _).
  simpl. auto.
Defined.

Lemma missing_response_iff_falsy_witness :
  truthy (fileURL_of {| req_query := [("fileURL", JStr "")]; req_body := JNull |}) = false.
Proof.
  apply (proj1 (missing_response_iff_falsy ok_fetch hello_parse plain_to_string
                  {| req_query := [("fileURL", JStr "")]; req_body := JNull |})).
  reflexivity.
Defined.


Lemma success_response_provenance_witness :
  exists r bytes data t,
    ok_fetch url_a = Return r /\ resp_ok r = true /\
    resp_arrayBuffer r = Return bytes /\ hello_parse bytes = Return data /\
    extract_text data [] = (Return t, []) /\ success_body "Hello World" = success_body t.
Proof.
  refine (success_response_provenance ok_fetch hello_parse plain_to_string (req_q url_a)
            (success_body "Hello World") _).
  simpl. auto.
Defined.

Lemma client_error_provenance_witness :
  (truthy url_a = false /\ unable_body = missing_body) \/
  (truthy url_a = true /\ unable_body = unable_body /\
   exists r, not_found_fetch url_a = Return r /\ resp_ok r = false).
Proof.
  refine (client_error_provenance not_found_fetch hello_parse plain_to_string (req_q url_a)
            unable_body _).
  simpl. auto.
Defined.

